(** * Advanced Weather App: the view-state controller of [src/App.tsx]

    The React component [App] keeps seven pieces of state and mutates them
    from four places: the startup geolocation effect, [fetchWeather],
    [fetchForecast] and [handleSearch] (plus [toggleDarkMode]).  This file
    embeds those functions as programs of a small effect monad, gives them an
    operational reading (a sequential one for awaited calls, a task pool for
    calls that are started and not awaited) and proves the properties the
    specification states about them. *)

From Stdlib Require Import String List Bool Arith ZArith Lia ZifyNat PrimFloat.
Import ListNotations.
Local Open Scope string_scope.
Local Open Scope list_scope.

Set Implicit Arguments.

(** Let [lia] see through [mod] by a constant. *)
Ltac Zify.zify_post_hook ::= Z.div_mod_to_equations.

(** ** Data model *)

(** A JavaScript [number] is an IEEE 754 binary64 value. *)
Definition number := float.

(** [weather: Array<{ description; icon }>], also used by forecast entries. *)
Record Condition := mkCondition {
  description : string;
  icon : string
}.

Record WeatherMain := mkWeatherMain {
  temp : number;
  feels_like : number;
  humidity : number;
  pressure : number
}.

(** [interface WeatherData] *)
Record WeatherData := mkWeatherData {
  name : string;
  main : WeatherMain;
  weather_conditions : list Condition;   (* field [weather] *)
  wind_speed : number;                   (* field [wind.speed] *)
  visibility : number;
  dt : number
}.

(** One element of [ForecastData.list]. *)
Record ForecastEntry := mkForecastEntry {
  entry_dt : number;                     (* field [dt] *)
  entry_temp : number;                   (* field [main.temp] *)
  entry_conditions : list Condition      (* field [weather] *)
}.

(** [interface ForecastData]; the field is called [list] in the source. *)
Record ForecastData := mkForecastData {
  forecast_list : list ForecastEntry
}.

(** One element of the geocoding answer, destructured as [{ lat, lon }]. *)
Record GeoEntry := mkGeoEntry {
  lat : number;
  lon : number
}.

(** The [useState] cells of [App], in declaration order. *)
Record AppState := mkAppState {
  city : string;
  weather : option WeatherData;
  forecast : option ForecastData;
  loading : bool;
  error : string;
  coords : option (number * number);
  darkMode : bool
}.

(** The initial values passed to [useState]. *)
Definition initialState : AppState :=
  mkAppState "" None None false "" None false.

(** ** Effects *)

(** What [axios.get] rejects with: no answer at all, or a status outside 2xx. *)
Inductive AxiosError :=
| NetworkError
| BadStatus (status : nat).

(** The three GET requests of the source, indexed by the type of
    [response.data].  The arguments are the values interpolated into the URL
    template; [units=metric] and [limit=1] are fixed by the constructor. *)
Inductive Request : Type -> Type :=
| WeatherRequest (lat lon : number) (appid : string) : Request WeatherData
| ForecastRequest (lat lon : number) (appid : string) : Request ForecastData
| GeoRequest (q : string) (appid : string) : Request (list GeoEntry).

(** The synchronous effects: the seven state setters, [e.preventDefault()]
    and [console.error]. *)
Inductive Effect :=
| SetCity (v : string)
| SetWeather (v : option WeatherData)
| SetForecast (v : option ForecastData)
| SetLoading (v : bool)
| SetError (v : string)
| SetCoords (v : option (number * number))
| SetDarkMode (v : bool)
| PreventDefault
| ConsoleError (msg : string) (err : AxiosError).

(** Bodies of [async] functions.  [Await r k] is [await axios.get(...)]: the
    request is issued, the function is suspended, and [k] resumes it with the
    settled promise. *)
Inductive Async (A : Type) : Type :=
| Return (a : A)
| Throw (err : AxiosError)
| Do (e : Effect) (k : Async A)
| Await (T : Type) (r : Request T) (k : T + AxiosError -> Async A).

Arguments Return {A} a.
Arguments Throw {A} err.
Arguments Do {A} e k.
Arguments Await {A T} r k.

Fixpoint bind {A B : Type} (p : Async A) (f : A -> Async B) : Async B :=
  match p with
  | Return a => f a
  | Throw err => Throw err
  | Do e k => Do e (bind k f)
  | Await r k => Await r (fun res => bind (k res) f)
  end.

(** [try { p } catch (err) { h err }] *)
Fixpoint tryCatch {A : Type} (p : Async A) (h : AxiosError -> Async A) : Async A :=
  match p with
  | Return a => Return a
  | Throw err => h err
  | Do e k => Do e (tryCatch k h)
  | Await r k => Await r (fun res => tryCatch (k res) h)
  end.

Declare Scope async_scope.
Delimit Scope async_scope with async.
Bind Scope async_scope with Async.

Notation "x <- p ;; q" := (bind p (fun x => q))
  (at level 61, p at next level, right associativity) : async_scope.
Notation "p ;; q" := (bind p (fun _ => q))
  (at level 61, right associativity) : async_scope.
Notation "'try' p 'catch' h" := (tryCatch p h)
  (at level 60, p at level 61, h at level 0) : async_scope.

Definition perform (e : Effect) : Async unit := Do e (Return tt).

(** [await axios.get(url)]: the awaited value on success, a throw on rejection. *)
Definition axios_get {T : Type} (r : Request T) : Async T :=
  Await r (fun res => match res with
                      | inl data => Return data
                      | inr err => Throw err
                      end).

Definition setCity v := perform (SetCity v).
Definition setWeather v := perform (SetWeather v).
Definition setForecast v := perform (SetForecast v).
Definition setLoading v := perform (SetLoading v).
Definition setError v := perform (SetError v).
Definition setCoords v := perform (SetCoords v).
Definition setDarkMode v := perform (SetDarkMode v).
Definition preventDefault := perform PreventDefault.
Definition console_error msg err := perform (ConsoleError msg err).

(** ** The functions of [App] *)

Section App.

(** [import.meta.env.VITE_OPENWEATHERMAP_API_KEY], fixed at build time. *)
Variable API_KEY : string.

Local Open Scope async_scope.

Definition fetchWeather (lat lon : number) : Async unit :=
  setLoading true ;;
  setError "" ;;
  (try (response <- axios_get (WeatherRequest lat lon API_KEY) ;;
        setWeather (Some response))
   catch (fun err => setError "Unable to fetch weather data. Please try again.")) ;;
  setLoading false.

Definition fetchForecast (lat lon : number) : Async unit :=
  try (response <- axios_get (ForecastRequest lat lon API_KEY) ;;
       setForecast (Some response))
  catch (fun err => console_error "Unable to fetch forecast data" err).

(** [handleSearch] closes over the [city] of the render that created it. *)
Definition handleSearch (city : string) : Async unit :=
  preventDefault ;;
  setLoading true ;;
  setError "" ;;
  (try (geoResponse <- axios_get (GeoRequest city API_KEY) ;;
        match geoResponse with
        | first :: _ =>
            setCoords (Some (lat first, lon first)) ;;
            fetchWeather (lat first) (lon first) ;;
            fetchForecast (lat first) (lon first)
        | [] => setError "City not found. Please try again."
        end)
   catch (fun err => setError "An error occurred. Please try again.")) ;;
  setLoading false.

End App.

(** ** The startup effect *)

(** The argument of the error callback of [getCurrentPosition]. *)
Inductive GeolocationPositionError :=
| PERMISSION_DENIED
| POSITION_UNAVAILABLE
| TIMEOUT.

(** What the browser offers at mount time: no [navigator.geolocation] at all,
    or one whose single-shot request calls back with a position
    ([latitude], [longitude]) or with an error. *)
Inductive Geolocation :=
| NotSupported
| Supported (answer : (number * number) + GeolocationPositionError).

(** Statements of a callback that is not itself [async]: a synchronous effect,
    or a call of an [async] function whose promise is dropped (no [await]). *)
Inductive Stmt :=
| Sync (e : Effect)
| Call (p : Async unit).

(** [toggleDarkMode] is an ordinary function; it closes over the [darkMode]
    of the render that created it. *)
Definition toggleDarkMode (darkMode : bool) : list Stmt :=
  [ Sync (SetDarkMode (negb darkMode)) ].

Section Startup.

Variable API_KEY : string.

(** The body of [useEffect(() => { ... }, [])], with the callback that the
    browser ends up calling inlined in its place. *)
Definition startupEffect (geo : Geolocation) : list Stmt :=
  match geo with
  | Supported (inl (latitude, longitude)) =>
      [ Sync (SetCoords (Some (latitude, longitude)));
        Call (fetchWeather API_KEY latitude longitude);
        Call (fetchForecast API_KEY latitude longitude) ]
  | Supported (inr err) =>
      [ Sync (SetError "Unable to retrieve your location. Please search for a city.") ]
  | NotSupported =>
      [ Sync (SetError "Geolocation is not supported by your browser. Please search for a city.") ]
  end.

End Startup.

(** ** Operational reading *)

(** A state setter replaces its cell; the other two effects leave the state. *)
Definition applyEffect (e : Effect) (s : AppState) : AppState :=
  match e with
  | SetCity v =>
      mkAppState v (weather s) (forecast s) (loading s) (error s) (coords s) (darkMode s)
  | SetWeather v =>
      mkAppState (city s) v (forecast s) (loading s) (error s) (coords s) (darkMode s)
  | SetForecast v =>
      mkAppState (city s) (weather s) v (loading s) (error s) (coords s) (darkMode s)
  | SetLoading v =>
      mkAppState (city s) (weather s) (forecast s) v (error s) (coords s) (darkMode s)
  | SetError v =>
      mkAppState (city s) (weather s) (forecast s) (loading s) v (coords s) (darkMode s)
  | SetCoords v =>
      mkAppState (city s) (weather s) (forecast s) (loading s) (error s) v (darkMode s)
  | SetDarkMode v =>
      mkAppState (city s) (weather s) (forecast s) (loading s) (error s) (coords s) v
  | PreventDefault => s
  | ConsoleError _ _ => s
  end.

(** The outside world: how each request settles. *)
Definition Network := forall T : Type, Request T -> T + AxiosError.

(** What an observer of the component sees happen, in order. *)
Inductive Event :=
| Did (e : Effect)
| Requested (T : Type) (r : Request T).

Arguments Requested {T} r.

Record Outcome (A : Type) := mkOutcome {
  final : AppState;
  events : list Event;
  result : A + AxiosError
}.

Arguments mkOutcome {A} final events result.

(** One [async] function run to completion, every [await] resumed as soon as
    the network answers and nothing else interleaved. *)
Fixpoint run {A : Type} (net : Network) (p : Async A) (s : AppState) : Outcome A :=
  match p with
  | Return a => mkOutcome s [] (inl a)
  | Throw err => mkOutcome s [] (inr err)
  | Do e k =>
      let o := run net k (applyEffect e s) in
      mkOutcome (final o) (Did e :: events o) (result o)
  | Await r k =>
      let o := run net (k (net _ r)) s in
      mkOutcome (final o) (Requested r :: events o) (result o)
  end.

(** A suspended [async] function: the request it waits for and what it does
    with the answer. *)
Inductive Task :=
| Suspended (T : Type) (r : Request T) (k : T + AxiosError -> Async unit).

Arguments Suspended {T} r k.

(** The component together with the requests in flight. *)
Record World := mkWorld {
  state : AppState;
  log : list Event;
  pool : list Task
}.

(** Calling an [async] function runs it up to its first [await]. *)
Fixpoint start (p : Async unit) (w : World) : World :=
  match p with
  | Return _ => w
  | Throw _ => w
  | Do e k => start k (mkWorld (applyEffect e (state w)) (log w ++ [Did e]) (pool w))
  | Await r k => mkWorld (state w) (log w ++ [Requested r]) (pool w ++ [Suspended r k])
  end.

Definition execStmt (c : Stmt) (w : World) : World :=
  match c with
  | Sync e => mkWorld (applyEffect e (state w)) (log w ++ [Did e]) (pool w)
  | Call p => start p w
  end.

Definition exec (body : list Stmt) (w : World) : World :=
  fold_left (fun w c => execStmt c w) body w.

Fixpoint removeAt {A : Type} (i : nat) (l : list A) : list A :=
  match i, l with
  | _, [] => []
  | O, _ :: l' => l'
  | S i', x :: l' => x :: removeAt i' l'
  end.

(** The [i]-th request in flight settles and its function resumes. *)
Definition settle (net : Network) (i : nat) (w : World) : World :=
  match nth_error (pool w) i with
  | Some (Suspended r k) =>
      start (k (net _ r)) (mkWorld (state w) (log w) (removeAt i (pool w)))
  | None => w
  end.

(** Requests settle in the order the schedule picks. *)
Definition settleAll (net : Network) (schedule : list nat) (w : World) : World :=
  fold_left (fun w i => settle net i w) schedule w.

Definition mount (s : AppState) : World := mkWorld s [] [].

(** ** What is rendered *)

(** [Array.prototype.filter] with the two-argument callback. *)
Fixpoint filterFrom {A : Type} (f : A -> nat -> bool) (index : nat) (l : list A) : list A :=
  match l with
  | [] => []
  | x :: l' =>
      if f x index then x :: filterFrom f (S index) l' else filterFrom f (S index) l'
  end.

Definition filter_indexed {A : Type} (f : A -> nat -> bool) (l : list A) : list A :=
  filterFrom f 0 l.

(** [forecast.list.filter((_, index) => index % 8 === 0)]: the entries that
    get a card in the strip, in card order. *)
Definition forecastStrip (f : ForecastData) : list ForecastEntry :=
  filter_indexed (fun _ index => Nat.eqb (index mod 8) 0) (forecast_list f).

(** The conditional parts of the JSX tree, as built by a render that runs to
    its end: which blocks are present and what they are given.  The guards
    alone decide these; whether the blocks inside can be built at all is
    [pageRenders] below. *)
Record View := mkView {
  darkTheme : bool;
  submitDisabled : bool;
  submitLabel : string;
  errorBanner : option string;                 (* [{error && <p>...}] *)
  weatherPanel : option WeatherData;           (* [{weather && (...)}] *)
  mapCenter : option (number * number);        (* [{coords && (...)}], inside the panel *)
  forecastCards : option (list ForecastEntry)  (* [{forecast && (...)}] *)
}.

Definition render (s : AppState) : View :=
  mkView
    (darkMode s)
    (loading s)
    (if loading s then "Loading..." else "Search")
    (if String.eqb (error s) "" then None else Some (error s))
    (weather s)
    (match weather s with Some _ => coords s | None => None end)
    (option_map forecastStrip (forecast s)).

(** *** Renders that throw *)

(** [weather[0]] is [undefined] for an empty array, and the JSX reads
    [.description] and [.icon] of it. *)
Definition hasCondition (conditions : list Condition) : bool :=
  match conditions with
  | [] => false
  | _ :: _ => true
  end.

Section Rendering.

(** Whether [format(new Date(dt * 1000), pattern)] of date-fns returns a
    string for the timestamp [dt], rather than throwing on an invalid date. *)
Variable formats : number -> bool.

(** The weather panel reads [weather.dt] through [format] and
    [weather.weather[0]] three times. *)
Definition panelRenders (w : WeatherData) : bool :=
  formats (dt w) && hasCondition (weather_conditions w).

(** A forecast card reads [day.dt] through [format] and [day.weather[0]]
    twice. *)
Definition cardRenders (day : ForecastEntry) : bool :=
  formats (entry_dt day) && hasCondition (entry_conditions day).

(** The render of [App] runs to its end: the panel, when there is one, and
    every card of the strip, when there is one, can be built. *)
Definition pageRenders (s : AppState) : bool :=
  match weather s with
  | Some w => panelRenders w
  | None => true
  end
  &&
  match forecast s with
  | Some f => forallb cardRenders (forecastStrip f)
  | None => true
  end.

End Rendering.

(** ** Event handlers as state transitions *)

(** Number of requests a function issues before it completes on [net]. *)
Fixpoint awaits {A : Type} (net : Network) (p : Async A) : nat :=
  match p with
  | Return _ => 0
  | Throw _ => 0
  | Do _ k => awaits net k
  | Await r k => S (awaits net (k (net _ r)))
  end.

(** A click on the theme button: React re-renders after each click, so the
    handler that runs is the one built from the state being displayed. *)
Definition clickToggle (s : AppState) : AppState :=
  state (exec (toggleDarkMode (darkMode s)) (mount s)).

(** A submit of the search form, run to completion on [net]. *)
Definition submitSearch (API_KEY : string) (net : Network) (s : AppState) : Outcome unit :=
  run net (handleSearch API_KEY (city s)) s.

(** Mounting the component: the startup effect runs, then the requests in
    flight settle in the order of [schedule]. *)
Definition startup (API_KEY : string) (net : Network) (geo : Geolocation)
    (schedule : list nat) (s : AppState) : World :=
  settleAll net schedule (exec (startupEffect API_KEY geo) (mount s)).

(** ** Observations on traces *)

Definition isWeatherRequest (ev : Event) : bool :=
  match ev with
  | Requested (WeatherRequest _ _ _) => true
  | _ => false
  end.

Definition isForecastRequest (ev : Event) : bool :=
  match ev with
  | Requested (ForecastRequest _ _ _) => true
  | _ => false
  end.

Definition isFetch (ev : Event) : bool :=
  isWeatherRequest ev || isForecastRequest ev.

(** The snapshots on display are the provider's answers for the stored
    coordinates, that is, they were fetched for the place the map shows. *)
Definition consistent (API_KEY : string) (net : Network) (s : AppState) : Prop :=
  forall c, coords s = Some c ->
    (forall w, weather s = Some w ->
       net _ (WeatherRequest (fst c) (snd c) API_KEY) = inl w) /\
    (forall f, forecast s = Some f ->
       net _ (ForecastRequest (fst c) (snd c) API_KEY) = inl f).

(** The state once [handleSearch] has run its first two setters. *)
Definition searching (s : AppState) : AppState :=
  applyEffect (SetError "") (applyEffect (SetLoading true) (applyEffect PreventDefault s)).

(** What each fetch does once its request has settled: one setter call or one
    console line, depending on the answer. *)
Definition weatherSettles (API_KEY : string) (net : Network) (lat lon : number) : Event :=
  match net _ (WeatherRequest lat lon API_KEY) with
  | inl w => Did (SetWeather (Some w))
  | inr _ => Did (SetError "Unable to fetch weather data. Please try again.")
  end.

Definition forecastSettles (API_KEY : string) (net : Network) (lat lon : number) : Event :=
  match net _ (ForecastRequest lat lon API_KEY) with
  | inl f => Did (SetForecast (Some f))
  | inr err => Did (ConsoleError "Unable to fetch forecast data" err)
  end.

(** ** The page between events *)

(** [onChange={(e) => setCity(e.target.value)}] on the text input. *)
Definition handleCityChange (value : string) : list Stmt :=
  [ Sync (SetCity value) ].

Definition typeCity (value : string) (w : World) : World :=
  exec (handleCityChange value) w.

(** [<form onSubmit={handleSearch}>] with its [<button type="submit"
    disabled={loading}>]: a form whose submit button is disabled is not
    submitted; otherwise React calls [handleSearch] and drops its promise. *)
Definition submitForm (API_KEY : string) (w : World) : World :=
  if submitDisabled (render (state w)) then w
  else start (handleSearch API_KEY (city (state w))) w.

(** [onClick={toggleDarkMode}] while requests may be in flight. *)
Definition clickTheme (w : World) : World :=
  exec (toggleDarkMode (darkMode (state w))) w.

(** The requests in flight, oldest first. *)
Definition inFlight (w : World) : list Event :=
  map (fun t => match t with Suspended r _ => Requested r end) (pool w).

(** A search typed and submitted while the forecast request of the startup
    is still in flight; that request is the last of all to settle. *)
Definition searchOvertakesStartup (API_KEY : string) (net : Network)
    (position : number * number) (q : string) (s : AppState) : World :=
  let located := exec (startupEffect API_KEY (Supported (inl position))) (mount s) in
  let weatherShown := settle net 0 located in
  let submitted := submitForm API_KEY (typeCity q weatherShown) in
  let searched := settleAll net [1; 1; 1] submitted in
  settle net 0 searched.

(** ** Sample data *)

Definition sampleKey : string := "0123456789abcdef".

#[warnings="-inexact-float"]
Definition berlin : number * number := (52.5%float, 13.4%float).

#[warnings="-inexact-float"]
Definition paris : GeoEntry := mkGeoEntry 48.85%float 2.35%float.

Definition clearSky : Condition := mkCondition "clear sky" "01d".

Definition berlinWeather : WeatherData :=
  mkWeatherData "Berlin" (mkWeatherMain 21.5 20.75 56 1014)%float [clearSky]
                3.5%float 10000%float 1700000000%float.

Definition parisWeather : WeatherData :=
  mkWeatherData "Paris" (mkWeatherMain 18.25 17.5 71 1009)%float [clearSky]
                5.25%float 9000%float 1700000600%float.

Fixpoint numberOfNat (n : nat) : number :=
  match n with
  | O => 0%float
  | S n' => (numberOfNat n' + 1)%float
  end.

(** The [i]-th entry of a 3-hour-interval series. *)
Definition entryAt (i : nat) : ForecastEntry :=
  mkForecastEntry (1700000000 + 10800 * numberOfNat i)%float
                  (15 + numberOfNat (i mod 8))%float
                  [clearSky].

Definition fiveDays : ForecastData := mkForecastData (map entryAt (seq 0 40)).

(** A provider that answers everything it is asked. *)
Definition fairNet : Network :=
  fun T r =>
    match r in Request T return T + AxiosError with
    | WeatherRequest la _ _ =>
        inl (if (la =? 52.5)%float then berlinWeather else parisWeather)
    | ForecastRequest _ _ _ => inl fiveDays
    | GeoRequest q _ => inl (if String.eqb q "Paris" then [paris] else [])
    end.

(** A provider whose weather and forecast endpoints only answer for Berlin. *)
Definition parisOutage : Network :=
  fun T r =>
    match r in Request T return T + AxiosError with
    | WeatherRequest la _ _ =>
        if (la =? 52.5)%float then inl berlinWeather else inr (BadStatus 503)
    | ForecastRequest la _ _ =>
        if (la =? 52.5)%float then inl fiveDays else inr (BadStatus 503)
    | GeoRequest q _ => inl (if String.eqb q "Paris" then [paris] else [])
    end.

(** A provider whose forecast endpoint is down. *)
Definition forecastOutage : Network :=
  fun T r =>
    match r in Request T return T + AxiosError with
    | WeatherRequest la _ _ =>
        inl (if (la =? 52.5)%float then berlinWeather else parisWeather)
    | ForecastRequest _ _ _ => inr NetworkError
    | GeoRequest q _ => inl (if String.eqb q "Paris" then [paris] else [])
    end.

(** A provider whose current-weather endpoint is down. *)
Definition weatherOutage : Network :=
  fun T r =>
    match r in Request T return T + AxiosError with
    | WeatherRequest _ _ _ => inr (BadStatus 500)
    | ForecastRequest _ _ _ => inl fiveDays
    | GeoRequest q _ => inl (if String.eqb q "Paris" then [paris] else [])
    end.

(** A provider whose geocoding endpoint is down. *)
Definition geocodingOutage : Network :=
  fun T r =>
    match r in Request T return T + AxiosError with
    | WeatherRequest _ _ _ => inl berlinWeather
    | ForecastRequest _ _ _ => inl fiveDays
    | GeoRequest _ _ => inr NetworkError
    end.

(** The time values a JavaScript [Date] accepts: finite and within
    8.64e15 milliseconds of the epoch. *)
Definition validTime (dt : number) : bool :=
  (PrimFloat.abs (dt * 1000) <=? 8640000000000000)%float.

(** A day and three hours of forecast. *)
Definition nineEntries : ForecastData := mkForecastData (map entryAt (seq 0 9)).

(** A provider with a different forecast for Berlin and for everywhere else. *)
Definition twoCities : Network :=
  fun T r =>
    match r in Request T return T + AxiosError with
    | WeatherRequest la _ _ =>
        inl (if (la =? 52.5)%float then berlinWeather else parisWeather)
    | ForecastRequest la _ _ =>
        inl (if (la =? 52.5)%float then nineEntries else fiveDays)
    | GeoRequest q _ => inl (if String.eqb q "Paris" then [paris] else [])
    end.

Arguments twoCities T r : clear implicits.
Arguments weatherOutage T r : clear implicits.
Arguments geocodingOutage T r : clear implicits.
Arguments fairNet T r : clear implicits.
Arguments parisOutage T r : clear implicits.
Arguments forecastOutage T r : clear implicits.

(** The state after a startup in Berlin on which everything went well. *)
Definition berlinLoaded : AppState :=
  mkAppState "" (Some berlinWeather) (Some fiveDays) false "" (Some berlin) false.

(** Case analysis on the answers of the network, in the order in which the
    program comes to need them. *)
Ltac answer_cases :=
  repeat (simpl;
          match goal with
          | H : ?n ?T ?r = _ |- context [ ?n ?T ?r ] => rewrite H
          | |- context [ match ?n ?T ?r with inl _ => _ | inr _ => _ end ] =>
              lazymatch type of r with
              | Request _ => destruct (n T r) eqn:?
              end
          end);
  simpl.

(** ** General facts about the operational reading *)

Unset Implicit Arguments.

Lemma run_bind {A B : Type} (net : Network) (p : Async A) (f : A -> Async B) (s : AppState) :
  run net (bind p f) s =
  match result (run net p s) with
  | inl a =>
      let o := run net (f a) (final (run net p s)) in
      mkOutcome (final o) (events (run net p s) ++ events o) (result o)
  | inr err => mkOutcome (final (run net p s)) (events (run net p s)) (inr err)
  end.
Proof.
  revert s; induction p as [a | err | e k IH | T r k IH]; intro s; simpl.
  - destruct (run net (f a) s); reflexivity.
  - reflexivity.
  - rewrite IH. destruct (result (run net k (applyEffect e s))); reflexivity.
  - rewrite IH. destruct (result (run net (k (net T r)) s)); reflexivity.
Qed.

Lemma run_tryCatch {A : Type} (net : Network) (p : Async A) (h : AxiosError -> Async A)
    (s : AppState) :
  run net (tryCatch p h) s =
  match result (run net p s) with
  | inl a => run net p s
  | inr err =>
      let o := run net (h err) (final (run net p s)) in
      mkOutcome (final o) (events (run net p s) ++ events o) (result o)
  end.
Proof.
  revert s; induction p as [a | err | e k IH | T r k IH]; intro s; simpl.
  - reflexivity.
  - destruct (run net (h err) s); reflexivity.
  - rewrite IH.
    destruct (result (run net k (applyEffect e s))) eqn:E; simpl; rewrite ?E; reflexivity.
  - rewrite IH.
    destruct (result (run net (k (net T r)) s)) eqn:E; simpl; rewrite ?E; reflexivity.
Qed.

(** Resuming a function whenever its one request settles is the same as
    running it to completion: this is what [await]ing every call amounts to. *)
Lemma start_settle_run (net : Network) (p : Async unit) (s : AppState) (l : list Event) :
  settleAll net (repeat 0 (awaits net p)) (start p (mkWorld s l [])) =
  mkWorld (final (run net p s)) (l ++ events (run net p s)) [].
Proof.
  revert s l; induction p as [a | err | e k IH | T r k IH]; intros s l; simpl.
  - now rewrite app_nil_r.
  - now rewrite app_nil_r.
  - rewrite IH. simpl. now rewrite <- app_assoc.
  - unfold settle at 1. simpl. rewrite IH. simpl. now rewrite <- app_assoc.
Qed.

(** ** The two fetches *)

Section Fetches.

Variable API_KEY : string.
Variable net : Network.

Lemma run_fetchWeather (s : AppState) (lat lon : number) :
  run net (fetchWeather API_KEY lat lon) s =
  match net _ (WeatherRequest lat lon API_KEY) with
  | inl w =>
      mkOutcome
        (mkAppState (city s) (Some w) (forecast s) false "" (coords s) (darkMode s))
        [ Did (SetLoading true); Did (SetError "");
          Requested (WeatherRequest lat lon API_KEY);
          Did (SetWeather (Some w)); Did (SetLoading false) ]
        (inl tt)
  | inr _ =>
      mkOutcome
        (mkAppState (city s) (weather s) (forecast s) false
                    "Unable to fetch weather data. Please try again."
                    (coords s) (darkMode s))
        [ Did (SetLoading true); Did (SetError "");
          Requested (WeatherRequest lat lon API_KEY);
          Did (SetError "Unable to fetch weather data. Please try again.");
          Did (SetLoading false) ]
        (inl tt)
  end.
Proof.
  unfold fetchWeather; simpl.
  destruct (net _ (WeatherRequest lat lon API_KEY)); reflexivity.
Qed.

Lemma run_fetchForecast (s : AppState) (lat lon : number) :
  run net (fetchForecast API_KEY lat lon) s =
  match net _ (ForecastRequest lat lon API_KEY) with
  | inl f =>
      mkOutcome
        (applyEffect (SetForecast (Some f)) s)
        [ Requested (ForecastRequest lat lon API_KEY); Did (SetForecast (Some f)) ]
        (inl tt)
  | inr err =>
      mkOutcome s
        [ Requested (ForecastRequest lat lon API_KEY);
          Did (ConsoleError "Unable to fetch forecast data" err) ]
        (inl tt)
  end.
Proof.
  unfold fetchForecast; simpl.
  destruct (net _ (ForecastRequest lat lon API_KEY)); reflexivity.
Qed.

(** Neither fetch lets an exception escape. *)
Lemma fetchWeather_returns (s : AppState) (lat lon : number) :
  result (run net (fetchWeather API_KEY lat lon) s) = inl tt.
Proof.
  rewrite run_fetchWeather. now destruct (net _ _).
Qed.

Lemma fetchForecast_returns (s : AppState) (lat lon : number) :
  result (run net (fetchForecast API_KEY lat lon) s) = inl tt.
Proof.
  rewrite run_fetchForecast. now destruct (net _ _).
Qed.

(** C1, as amended.  Both snapshots are null before the first load.  A call of
    [fetchWeather] whose request fails leaves the weather cell as it was before
    the call (null only if it was null already) and one whose request succeeds
    stores the newly fetched snapshot; [fetchForecast] treats the forecast cell
    the same way. *)
Theorem fetch_replaces_or_keeps (s : AppState) (lat lon : number) :
  weather initialState = None /\
  forecast initialState = None /\
  weather (final (run net (fetchWeather API_KEY lat lon) s)) =
    match net _ (WeatherRequest lat lon API_KEY) with
    | inl w => Some w
    | inr _ => weather s
    end /\
  forecast (final (run net (fetchForecast API_KEY lat lon) s)) =
    match net _ (ForecastRequest lat lon API_KEY) with
    | inl f => Some f
    | inr _ => forecast s
    end.
Proof.
  repeat split.
  - rewrite run_fetchWeather. now destruct (net _ _).
  - rewrite run_fetchForecast. now destruct (net _ _).
Qed.

(** C10.  [fetchForecast] writes at most the forecast cell: on success the
    final state is the initial one with the forecast replaced, on failure it is
    the initial state itself; in both cases the city text, the current weather,
    the loading flag, the error message, the coordinates and the theme flag are
    untouched, and the call returns normally. *)
Theorem fetchForecast_frame (s : AppState) (lat lon : number) :
  let o := run net (fetchForecast API_KEY lat lon) s in
  final o =
    match net _ (ForecastRequest lat lon API_KEY) with
    | inl f => applyEffect (SetForecast (Some f)) s
    | inr _ => s
    end /\
  city (final o) = city s /\
  weather (final o) = weather s /\
  loading (final o) = loading s /\
  error (final o) = error s /\
  coords (final o) = coords s /\
  darkMode (final o) = darkMode s /\
  result o = inl tt.
Proof.
  intro o; subst o. rewrite run_fetchForecast.
  destruct (net _ (ForecastRequest lat lon API_KEY)); simpl; repeat split.
Qed.

End Fetches.

(** ** Search *)

Section Search.

Variable API_KEY : string.
Variable net : Network.

Lemma run_handleSearch (q : string) (s : AppState) :
  run net (handleSearch API_KEY q) s =
  match net _ (GeoRequest q API_KEY) with
  | inl (first :: _) =>
      let ow := run net (fetchWeather API_KEY (lat first) (lon first))
                    (applyEffect (SetCoords (Some (lat first, lon first))) (searching s)) in
      let fo := run net (fetchForecast API_KEY (lat first) (lon first)) (final ow) in
      mkOutcome
        (applyEffect (SetLoading false) (final fo))
        ([ Did PreventDefault; Did (SetLoading true); Did (SetError "");
           Requested (GeoRequest q API_KEY);
           Did (SetCoords (Some (lat first, lon first))) ]
           ++ events ow ++ events fo ++ [ Did (SetLoading false) ])
        (inl tt)
  | inl [] =>
      mkOutcome
        (applyEffect (SetLoading false)
           (applyEffect (SetError "City not found. Please try again.") (searching s)))
        [ Did PreventDefault; Did (SetLoading true); Did (SetError "");
          Requested (GeoRequest q API_KEY);
          Did (SetError "City not found. Please try again.");
          Did (SetLoading false) ]
        (inl tt)
  | inr _ =>
      mkOutcome
        (applyEffect (SetLoading false)
           (applyEffect (SetError "An error occurred. Please try again.") (searching s)))
        [ Did PreventDefault; Did (SetLoading true); Did (SetError "");
          Requested (GeoRequest q API_KEY);
          Did (SetError "An error occurred. Please try again.");
          Did (SetLoading false) ]
        (inl tt)
  end.
Proof.
  unfold handleSearch; simpl.
  destruct (net _ (GeoRequest q API_KEY)) as [[ | first rest] | err]; simpl;
    try reflexivity.
  destruct (net _ (WeatherRequest (lat first) (lon first) API_KEY)); simpl;
    destruct (net _ (ForecastRequest (lat first) (lon first) API_KEY)); reflexivity.
Qed.

(** C4.  Whatever the network does, [handleSearch] begins by raising the
    loading flag and clearing the error message (after [preventDefault], before
    the geocoding request goes out), it returns normally, its last step lowers
    the loading flag, and the flag is false in the state it leaves. *)
Theorem handleSearch_brackets_loading (q : string) (s : AppState) :
  let o := run net (handleSearch API_KEY q) s in
  (exists middle,
     events o =
       [ Did PreventDefault; Did (SetLoading true); Did (SetError "");
         Requested (GeoRequest q API_KEY) ] ++ middle ++ [ Did (SetLoading false) ]) /\
  loading (searching s) = true /\
  error (searching s) = "" /\
  result o = inl tt /\
  loading (final o) = false.
Proof.
  intro o; subst o. rewrite run_handleSearch.
  destruct (net _ (GeoRequest q API_KEY)) as [[ | first rest] | err];
    cbv zeta; cbn [events final result].
  - split; [ now exists [ Did (SetError "City not found. Please try again.") ] | ].
    repeat split.
  - split; [ | repeat split ].
    match goal with
    | |- context [ events ?ow ++ events ?fo ++ _ ] =>
        exists (Did (SetCoords (Some (lat first, lon first))) :: events ow ++ events fo)
    end.
    cbn [app]. now rewrite <- app_assoc.
  - split; [ now exists [ Did (SetError "An error occurred. Please try again.") ] | ].
    repeat split.
Qed.

(** C5.  When the geocoding answer is the empty list, the search ends with the
    "City not found" message (and its banner), and the geocoding request is the
    only request of the whole run: no weather or forecast request goes out. *)
Theorem empty_geocoding_is_city_not_found (q : string) (s : AppState) :
  net _ (GeoRequest q API_KEY) = inl [] ->
  let o := run net (handleSearch API_KEY q) s in
  error (final o) = "City not found. Please try again." /\
  errorBanner (render (final o)) = Some "City not found. Please try again." /\
  events o =
    [ Did PreventDefault; Did (SetLoading true); Did (SetError "");
      Requested (GeoRequest q API_KEY);
      Did (SetError "City not found. Please try again.");
      Did (SetLoading false) ] /\
  filter isFetch (events o) = [].
Proof.
  intros Hgeo o; subst o. rewrite run_handleSearch, Hgeo. simpl.
  repeat split.
Qed.

(** C8.  When geocoding answers with a first entry at [(lat, lon)], the run of
    [handleSearch] is exactly: the geocoding request, [setCoords], the whole of
    [fetchWeather lat lon] down to its closing [setLoading(false)], and only
    then the forecast request for the same [(lat, lon)].  Each of the two
    fetch requests therefore goes out exactly once, with those coordinates. *)
Theorem search_fetches_once_in_order (q : string) (s : AppState)
    (first : GeoEntry) (others : list GeoEntry) :
  net _ (GeoRequest q API_KEY) = inl (first :: others) ->
  let o := run net (handleSearch API_KEY q) s in
  events o =
    [ Did PreventDefault; Did (SetLoading true); Did (SetError "");
      Requested (GeoRequest q API_KEY);
      Did (SetCoords (Some (lat first, lon first)));
      Did (SetLoading true); Did (SetError "");
      Requested (WeatherRequest (lat first) (lon first) API_KEY);
      weatherSettles API_KEY net (lat first) (lon first);
      Did (SetLoading false);
      Requested (ForecastRequest (lat first) (lon first) API_KEY);
      forecastSettles API_KEY net (lat first) (lon first);
      Did (SetLoading false) ] /\
  filter isWeatherRequest (events o) =
    [ Requested (WeatherRequest (lat first) (lon first) API_KEY) ] /\
  filter isForecastRequest (events o) =
    [ Requested (ForecastRequest (lat first) (lon first) API_KEY) ].
Proof.
  intros Hgeo o; subst o. rewrite run_handleSearch, Hgeo. cbv zeta.
  rewrite run_fetchForecast, run_fetchWeather.
  unfold weatherSettles, forecastSettles.
  destruct (net _ (WeatherRequest (lat first) (lon first) API_KEY)),
           (net _ (ForecastRequest (lat first) (lon first) API_KEY));
    simpl; repeat split.
Qed.

End Search.

(** ** Startup *)

Section Mount.

Variable API_KEY : string.
Variable net : Network.

Lemma settleAll_idle (schedule : list nat) (w : World) :
  pool w = [] -> settleAll net schedule w = w.
Proof.
  intro Hpool. induction schedule as [ | i schedule IH]; [ reflexivity | ].
  simpl. unfold settle. rewrite Hpool.
  destruct i; simpl; exact IH.
Qed.

(** Both fetches are in flight before either settles: the startup callback
    does not [await] them. *)
Lemma startup_requests_together (s : AppState) (latitude longitude : number) :
  log (exec (startupEffect API_KEY (Supported (inl (latitude, longitude)))) (mount s)) =
  [ Did (SetCoords (Some (latitude, longitude)));
    Did (SetLoading true); Did (SetError "");
    Requested (WeatherRequest latitude longitude API_KEY);
    Requested (ForecastRequest latitude longitude API_KEY) ].
Proof. reflexivity. Qed.

(** C6.  A refused (or otherwise failed) position request and a browser
    without geolocation each end the startup with one [setError] and nothing
    else: the two messages name their own cause and close with the same
    instruction, "Please search for a city.", the banner shows them, and no
    request is issued, then or later. *)
Theorem no_location_asks_to_search (s : AppState) (err : GeolocationPositionError)
    (schedule : list nat) :
  let denied := startup API_KEY net (Supported (inr err)) schedule s in
  let unsupported := startup API_KEY net NotSupported schedule s in
  error (state denied) =
    ("Unable to retrieve your location. " ++ "Please search for a city.")%string /\
  error (state unsupported) =
    ("Geolocation is not supported by your browser. "
       ++ "Please search for a city.")%string /\
  errorBanner (render (state denied)) = Some (error (state denied)) /\
  errorBanner (render (state unsupported)) = Some (error (state unsupported)) /\
  log denied = [ Did (SetError (error (state denied))) ] /\
  log unsupported = [ Did (SetError (error (state unsupported))) ] /\
  filter isFetch (log denied) = [] /\
  filter isFetch (log unsupported) = [] /\
  pool denied = [] /\
  pool unsupported = [].
Proof.
  intros denied unsupported; subst denied unsupported. unfold startup.
  rewrite !settleAll_idle by reflexivity.
  repeat split.
Qed.

(** C7, as amended.  A trigger that runs on its own, with no request of
    another trigger in flight from its start to its last settlement, and whose
    two fetches for the coordinates it stores both succeed, leaves those
    coordinates together with the two snapshots fetched for them: so does a
    search whose geocoding answer starts with these coordinates, run to
    completion, and so does a startup that resolves to them, started with
    nothing in flight, whichever of its two requests settles first. *)
Theorem consistent_when_fetches_succeed (s : AppState) (la lo : number)
    (w : WeatherData) (f : ForecastData) :
  net _ (WeatherRequest la lo API_KEY) = inl w ->
  net _ (ForecastRequest la lo API_KEY) = inl f ->
  (forall q others,
     net _ (GeoRequest q API_KEY) = inl (mkGeoEntry la lo :: others) ->
     let s' := final (run net (handleSearch API_KEY q) s) in
     coords s' = Some (la, lo) /\ weather s' = Some w /\ forecast s' = Some f /\
     consistent API_KEY net s') /\
  (forall schedule,
     schedule = [0; 0] \/ schedule = [1; 0] ->
     let s' := state (startup API_KEY net (Supported (inl (la, lo))) schedule s) in
     coords s' = Some (la, lo) /\ weather s' = Some w /\ forecast s' = Some f /\
     consistent API_KEY net s').
Proof.
  intros Hw Hf.
  assert (Hok : forall s', coords s' = Some (la, lo) -> weather s' = Some w ->
                           forecast s' = Some f -> consistent API_KEY net s').
  { intros s' Hc Hw' Hf' c Hc'. rewrite Hc in Hc'. injection Hc' as <-. simpl.
    split; [ intros w0 E; rewrite Hw' in E | intros f0 E; rewrite Hf' in E ];
      injection E as <-; assumption. }
  split.
  - intros q others Hgeo s'; subst s'.
    rewrite run_handleSearch, Hgeo. cbv zeta.
    rewrite run_fetchForecast, run_fetchWeather. simpl. rewrite Hw, Hf. simpl.
    do 3 (split; [ reflexivity | ]). now apply Hok.
  - intros schedule [-> | ->] s'; subst s';
      unfold startup, settleAll, settle; simpl;
      rewrite ?Hw, ?Hf; simpl; rewrite ?Hw, ?Hf; simpl;
      do 3 (split; [ reflexivity | ]); now apply Hok.
Qed.

End Mount.

(** ** A forecast outage *)

Section ForecastOutage.

Variable API_KEY : string.
Variable net : Network.

(** C2.  When the current-weather request succeeds and the forecast request
    then fails, the failure only reaches the console: the forecast fetch leaves
    the whole state as the weather fetch left it, so the error message, which
    is what the banner shows, is empty and the weather cell holds the snapshot
    just fetched.  The same is true at the end of a search that runs the pair,
    and of a startup that does, in whichever order its two requests settle. *)
Theorem forecast_failure_is_silent (s : AppState) (la lo : number)
    (w : WeatherData) (err : AxiosError) :
  net _ (WeatherRequest la lo API_KEY) = inl w ->
  net _ (ForecastRequest la lo API_KEY) = inr err ->
  (let s1 := final (run net (fetchWeather API_KEY la lo) s) in
   let o := run net (fetchForecast API_KEY la lo) s1 in
   events o = [ Requested (ForecastRequest la lo API_KEY);
                Did (ConsoleError "Unable to fetch forecast data" err) ] /\
   result o = inl tt /\
   final o = s1 /\
   error (final o) = "" /\
   weather (final o) = Some w) /\
  (forall q others,
     net _ (GeoRequest q API_KEY) = inl (mkGeoEntry la lo :: others) ->
     let s' := final (run net (handleSearch API_KEY q) s) in
     error s' = "" /\ weather s' = Some w /\ forecast s' = forecast s) /\
  (forall schedule,
     schedule = [0; 0] \/ schedule = [1; 0] ->
     let s' := state (startup API_KEY net (Supported (inl (la, lo))) schedule s) in
     error s' = "" /\ weather s' = Some w /\ forecast s' = forecast s).
Proof.
  intros Hw Hf. split; [ | split ].
  - intros s1 o; subst o s1.
    rewrite run_fetchForecast, Hf, run_fetchWeather, Hw. simpl.
    repeat split.
  - intros q others Hgeo s'; subst s'.
    rewrite run_handleSearch, Hgeo. cbv zeta.
    rewrite run_fetchForecast, run_fetchWeather. simpl. rewrite Hw, Hf. simpl.
    repeat split.
  - intros schedule [-> | ->] s'; subst s';
      unfold startup, settleAll, settle; simpl;
      rewrite ?Hw, ?Hf; simpl; rewrite ?Hw, ?Hf; simpl;
      repeat split.
Qed.

End ForecastOutage.

(** ** Theme *)

(** C9.  A click on the theme button negates the dark-mode flag and leaves
    the city text, the weather, the forecast, the loading flag, the error
    message and the coordinates as they were; a second click restores the
    flag, and with it the whole state. *)
Theorem toggle_is_an_involution (s : AppState) :
  clickToggle s =
    mkAppState (city s) (weather s) (forecast s) (loading s) (error s) (coords s)
               (negb (darkMode s)) /\
  darkMode (clickToggle (clickToggle s)) = darkMode s /\
  clickToggle (clickToggle s) = s.
Proof.
  destruct s as [c w f l e xy d]. unfold clickToggle. simpl.
  rewrite Bool.negb_involutive. repeat split.
Qed.

(** ** The forecast strip *)

Lemma nth_error_filterFrom_every_8 (l : list ForecastEntry) (index k : nat) :
  nth_error (filterFrom (fun _ i => Nat.eqb (i mod 8) 0) index l) k =
  nth_error l (8 * k + (8 - index mod 8) mod 8).
Proof.
  revert index k; induction l as [ | x l IH]; intros index k.
  - cbn [filterFrom]. now rewrite !nth_error_nil.
  - cbn [filterFrom].
    destruct (Nat.eqb (index mod 8) 0) eqn:E.
    + apply Nat.eqb_eq in E.
      replace ((8 - index mod 8) mod 8) with 0 by (rewrite E; reflexivity).
      destruct k as [ | k]; [ reflexivity | ].
      cbn [nth_error]. rewrite IH.
      replace (8 * S k + 0) with (S (8 * k + 7)) by lia.
      cbn [nth_error]. f_equal. f_equal.
      assert (S index mod 8 = 1) by lia. now rewrite H.
    + apply Nat.eqb_neq in E. rewrite IH.
      assert (H : (8 - index mod 8) mod 8 = S ((8 - S index mod 8) mod 8)) by lia.
      rewrite H. now rewrite Nat.add_succ_r.
Qed.

(** C3.  The strip keeps the entries whose index is a multiple of 8, in list
    order: its [k]-th card is the entry at index [8 * k].  For a list of 40
    entries these are the five entries at indices 0, 8, 16, 24 and 32. *)
Theorem strip_keeps_every_eighth (f : ForecastData) :
  (forall k, nth_error (forecastStrip f) k = nth_error (forecast_list f) (8 * k)) /\
  (length (forecast_list f) = 40 ->
   length (forecastStrip f) = 5 /\
   map Some (forecastStrip f) = map (nth_error (forecast_list f)) [0; 8; 16; 24; 32]).
Proof.
  split.
  - intro k. unfold forecastStrip, filter_indexed.
    rewrite nth_error_filterFrom_every_8. f_equal. simpl. lia.
  - destruct f as [l]; simpl. intro Hlen.
    do 40 (destruct l as [ | ? l]; [ discriminate Hlen | ]).
    destruct l; [ | discriminate Hlen ].
    split; reflexivity.
Qed.

(** ** The properties at concrete inputs *)

(** A search for "Paris" from the initial state, provider up. *)
Example search_paris :
  final (submitSearch sampleKey fairNet (applyEffect (SetCity "Paris") initialState)) =
  mkAppState "Paris" (Some parisWeather) (Some fiveDays) false ""
             (Some (lat paris, lon paris)) false.
Proof. reflexivity. Qed.

(** A startup in Berlin, forecast settling before current weather. *)
Example startup_berlin :
  startup sampleKey parisOutage (Supported (inl berlin)) [1; 0] initialState =
  mkWorld berlinLoaded
    [ Did (SetCoords (Some berlin)); Did (SetLoading true); Did (SetError "");
      Requested (WeatherRequest (fst berlin) (snd berlin) sampleKey);
      Requested (ForecastRequest (fst berlin) (snd berlin) sampleKey);
      Did (SetForecast (Some fiveDays));
      Did (SetWeather (Some berlinWeather)); Did (SetLoading false) ]
    [].
Proof. reflexivity. Qed.

Example strip_of_five_days :
  forecastStrip fiveDays = map entryAt [0; 8; 16; 24; 32].
Proof. reflexivity. Qed.

(** C1 as stated fails: with Berlin on display, a weather fetch for Paris that
    the provider refuses leaves the weather cell holding Berlin, not null. *)
Lemma failed_fetch_keeps_old_weather :
  parisOutage _ (WeatherRequest (lat paris) (lon paris) sampleKey) = inr (BadStatus 503) /\
  weather (final (run parisOutage (fetchWeather sampleKey (lat paris) (lon paris))
                      berlinLoaded)) = Some berlinWeather /\
  weather (final (run parisOutage (fetchWeather sampleKey (lat paris) (lon paris))
                      berlinLoaded)) <> None.
Proof.
  split; [ reflexivity | split; [ reflexivity | discriminate ] ].
Qed.

Lemma forecast_failure_is_silent_witness :
  forecastOutage _ (WeatherRequest (fst berlin) (snd berlin) sampleKey) = inl berlinWeather /\
  forecastOutage _ (ForecastRequest (fst berlin) (snd berlin) sampleKey) = inr NetworkError /\
  let s1 := final (run forecastOutage (fetchWeather sampleKey (fst berlin) (snd berlin))
                       initialState) in
  let o := run forecastOutage (fetchForecast sampleKey (fst berlin) (snd berlin)) s1 in
  events o = [ Requested (ForecastRequest (fst berlin) (snd berlin) sampleKey);
               Did (ConsoleError "Unable to fetch forecast data" NetworkError) ] /\
  result o = inl tt /\
  final o = s1 /\
  error (final o) = "" /\
  weather (final o) = Some berlinWeather.
Proof.
  split; [ reflexivity | split; [ reflexivity | ] ].
  apply (proj1 (forecast_failure_is_silent sampleKey forecastOutage initialState
                  (fst berlin) (snd berlin) berlinWeather NetworkError
                  eq_refl eq_refl)).
Defined.

Lemma strip_keeps_every_eighth_witness :
  length (forecast_list fiveDays) = 40 /\
  length (forecastStrip fiveDays) = 5 /\
  map Some (forecastStrip fiveDays) =
    map (nth_error (forecast_list fiveDays)) [0; 8; 16; 24; 32].
Proof.
  split; [ reflexivity | ].
  apply (proj2 (strip_keeps_every_eighth fiveDays)); reflexivity.
Defined.

Lemma empty_geocoding_is_city_not_found_witness :
  fairNet _ (GeoRequest "Nowhere12345" sampleKey) = inl [] /\
  let o := run fairNet (handleSearch sampleKey "Nowhere12345") berlinLoaded in
  error (final o) = "City not found. Please try again." /\
  errorBanner (render (final o)) = Some "City not found. Please try again." /\
  events o =
    [ Did PreventDefault; Did (SetLoading true); Did (SetError "");
      Requested (GeoRequest "Nowhere12345" sampleKey);
      Did (SetError "City not found. Please try again.");
      Did (SetLoading false) ] /\
  filter isFetch (events o) = [].
Proof.
  split; [ reflexivity | ].
  apply (empty_geocoding_is_city_not_found sampleKey fairNet "Nowhere12345" berlinLoaded);
    reflexivity.
Defined.

Lemma search_fetches_once_in_order_witness :
  fairNet _ (GeoRequest "Paris" sampleKey) = inl [paris] /\
  let o := run fairNet (handleSearch sampleKey "Paris") initialState in
  events o =
    [ Did PreventDefault; Did (SetLoading true); Did (SetError "");
      Requested (GeoRequest "Paris" sampleKey);
      Did (SetCoords (Some (lat paris, lon paris)));
      Did (SetLoading true); Did (SetError "");
      Requested (WeatherRequest (lat paris) (lon paris) sampleKey);
      weatherSettles sampleKey fairNet (lat paris) (lon paris);
      Did (SetLoading false);
      Requested (ForecastRequest (lat paris) (lon paris) sampleKey);
      forecastSettles sampleKey fairNet (lat paris) (lon paris);
      Did (SetLoading false) ] /\
  filter isWeatherRequest (events o) =
    [ Requested (WeatherRequest (lat paris) (lon paris) sampleKey) ] /\
  filter isForecastRequest (events o) =
    [ Requested (ForecastRequest (lat paris) (lon paris) sampleKey) ].
Proof.
  split; [ reflexivity | ].
  apply (search_fetches_once_in_order sampleKey fairNet "Paris" initialState paris []);
    reflexivity.
Defined.

(** C7 as stated fails: Berlin is loaded and consistent; a search for Paris
    whose fetches are refused stores the coordinates of Paris and leaves the
    weather and forecast of Berlin on display. *)
Lemma stale_weather_after_failed_search :
  startup sampleKey parisOutage (Supported (inl berlin)) [0; 0] initialState =
    mkWorld berlinLoaded
      (log (startup sampleKey parisOutage (Supported (inl berlin)) [0; 0] initialState)) [] /\
  consistent sampleKey parisOutage berlinLoaded /\
  let s' := final (submitSearch sampleKey parisOutage
                     (applyEffect (SetCity "Paris") berlinLoaded)) in
  coords s' = Some (lat paris, lon paris) /\
  weather s' = Some berlinWeather /\
  forecast s' = Some fiveDays /\
  ~ consistent sampleKey parisOutage s'.
Proof.
  split; [ reflexivity | split ].
  - intros c Hc. injection Hc as <-.
    split; [ intros w E | intros f E ]; injection E as <-; reflexivity.
  - do 3 (split; [ reflexivity | ]).
    intro H. destruct (H (lat paris, lon paris) eq_refl) as [Hw _].
    specialize (Hw berlinWeather eq_refl). discriminate Hw.
Qed.

Lemma consistent_when_fetches_succeed_witness :
  fairNet _ (WeatherRequest (lat paris) (lon paris) sampleKey) = inl parisWeather /\
  fairNet _ (ForecastRequest (lat paris) (lon paris) sampleKey) = inl fiveDays /\
  (let s' := final (run fairNet (handleSearch sampleKey "Paris") berlinLoaded) in
   coords s' = Some (lat paris, lon paris) /\ weather s' = Some parisWeather /\
   forecast s' = Some fiveDays /\ consistent sampleKey fairNet s') /\
  (let s' := state (startup sampleKey fairNet (Supported (inl (lat paris, lon paris)))
                      [1; 0] initialState) in
   coords s' = Some (lat paris, lon paris) /\ weather s' = Some parisWeather /\
   forecast s' = Some fiveDays /\ consistent sampleKey fairNet s').
Proof.
  split; [ reflexivity | split; [ reflexivity | ] ].
  destruct (consistent_when_fetches_succeed sampleKey fairNet berlinLoaded
              (lat paris) (lon paris) parisWeather fiveDays eq_refl eq_refl)
    as [Hsearch _].
  destruct (consistent_when_fetches_succeed sampleKey fairNet initialState
              (lat paris) (lon paris) parisWeather fiveDays eq_refl eq_refl)
    as [_ Hmount].
  split.
  - exact (Hsearch "Paris" [] eq_refl).
  - apply (Hmount [1; 0]). right; reflexivity.
Defined.

(** ** Further properties of the fetches and of the search *)

Section Handlers.

Variable API_KEY : string.
Variable net : Network.

(** X1.  [fetchWeather] never writes the city text, the forecast, the coordinates
    or the theme flag; it always ends with the loading flag down; it leaves
    the error message empty exactly when its request succeeded, whatever the
    message was before the call. *)
Theorem fetchWeather_frame (s : AppState) (la lo : number) :
  let o := run net (fetchWeather API_KEY la lo) s in
  city (final o) = city s /\
  forecast (final o) = forecast s /\
  coords (final o) = coords s /\
  darkMode (final o) = darkMode s /\
  loading (final o) = false /\
  error (final o) =
    match net _ (WeatherRequest la lo API_KEY) with
    | inl _ => ""
    | inr _ => "Unable to fetch weather data. Please try again."
    end /\
  result o = inl tt.
Proof.
  intro o; subst o. rewrite run_fetchWeather.
  destruct (net _ (WeatherRequest la lo API_KEY)); simpl; repeat split.
Qed.

(** X2.  The message a search leaves behind depends on the answers to its own
    requests only, never on the message that was there before nor on the
    forecast request: the generic message when the geocoding request fails,
    "City not found" for an empty answer, the weather message when the
    weather request fails, and none otherwise. *)
Theorem search_error_message (q : string) (s : AppState) :
  error (final (run net (handleSearch API_KEY q) s)) =
  match net _ (GeoRequest q API_KEY) with
  | inr _ => "An error occurred. Please try again."
  | inl [] => "City not found. Please try again."
  | inl (first :: _) =>
      match net _ (WeatherRequest (lat first) (lon first) API_KEY) with
      | inr _ => "Unable to fetch weather data. Please try again."
      | inl _ => ""
      end
  end.
Proof.
  rewrite run_handleSearch.
  destruct (net _ (GeoRequest q API_KEY)) as [[ | first rest] | err];
    [ reflexivity | | reflexivity ].
  cbv zeta. rewrite run_fetchForecast, run_fetchWeather.
  destruct (net _ (WeatherRequest (lat first) (lon first) API_KEY)); simpl;
    destruct (net _ (ForecastRequest (lat first) (lon first) API_KEY)); reflexivity.
Qed.

(** X3.  A search never writes the city text or the theme flag.  When its
    geocoding request fails or finds nothing it also leaves the coordinates
    and both snapshots alone, so what was on display stays on display next to
    the message. *)
Theorem handleSearch_frame (q : string) (s : AppState) :
  let o := run net (handleSearch API_KEY q) s in
  (city (final o) = city s /\ darkMode (final o) = darkMode s) /\
  ((net _ (GeoRequest q API_KEY) = inl [] \/
    exists err, net _ (GeoRequest q API_KEY) = inr err) ->
   coords (final o) = coords s /\
   weather (final o) = weather s /\
   forecast (final o) = forecast s /\
   filter isFetch (events o) = []).
Proof.
  intro o; subst o. rewrite run_handleSearch. split.
  - destruct (net _ (GeoRequest q API_KEY)) as [[ | first rest] | err];
      [ split; reflexivity | | split; reflexivity ].
    cbv zeta. rewrite run_fetchForecast, run_fetchWeather.
    destruct (net _ (WeatherRequest (lat first) (lon first) API_KEY)); simpl;
      destruct (net _ (ForecastRequest (lat first) (lon first) API_KEY));
      split; reflexivity.
  - intros [Hgeo | [err Hgeo]]; rewrite Hgeo; repeat split.
Qed.

(** X4.  A failed weather request does not stop a search: the forecast request is
    still made, and when it succeeds the new forecast is stored under the new
    coordinates while the weather cell keeps what it had and the error cell
    holds the weather message. *)
Theorem search_fetches_forecast_after_weather_failure (q : string) (s : AppState)
    (first : GeoEntry) (others : list GeoEntry) (err : AxiosError) (f : ForecastData) :
  net _ (GeoRequest q API_KEY) = inl (first :: others) ->
  net _ (WeatherRequest (lat first) (lon first) API_KEY) = inr err ->
  net _ (ForecastRequest (lat first) (lon first) API_KEY) = inl f ->
  let o := run net (handleSearch API_KEY q) s in
  final o =
    mkAppState (city s) (weather s) (Some f) false
               "Unable to fetch weather data. Please try again."
               (Some (lat first, lon first)) (darkMode s) /\
  filter isForecastRequest (events o) =
    [ Requested (ForecastRequest (lat first) (lon first) API_KEY) ].
Proof.
  intros Hgeo Hw Hf o; subst o.
  rewrite run_handleSearch, Hgeo. cbv zeta.
  rewrite run_fetchForecast, Hf, run_fetchWeather, Hw. simpl.
  repeat split.
Qed.

(** X5.  A search and a click on the theme button commute: the search reaches the
    same state and issues the same requests whether the theme is switched
    before it or after it. *)
Theorem search_commutes_with_toggle (q : string) (s : AppState) :
  final (run net (handleSearch API_KEY q) (clickToggle s)) =
    clickToggle (final (run net (handleSearch API_KEY q) s)) /\
  events (run net (handleSearch API_KEY q) (clickToggle s)) =
    events (run net (handleSearch API_KEY q) s).
Proof.
  rewrite !run_handleSearch.
  destruct (net _ (GeoRequest q API_KEY)) as [[ | first rest] | err];
    [ split; reflexivity | | split; reflexivity ].
  cbv zeta. rewrite !run_fetchForecast, !run_fetchWeather.
  destruct (net _ (WeatherRequest (lat first) (lon first) API_KEY)); simpl;
    destruct (net _ (ForecastRequest (lat first) (lon first) API_KEY));
    split; reflexivity.
Qed.

End Handlers.

(** ** Further properties of the page with requests in flight *)

Section Page.

Variable API_KEY : string.
Variable net : Network.

(** X6.  A startup that obtains a position stores it, issues the weather request
    and the forecast request for it once each, both before either answer is
    in, and ends with nothing in flight and the loading flag down, whatever
    the answers are and whichever arrives first. *)
Theorem startup_located_fetches_once (s : AppState) (la lo : number)
    (schedule : list nat) :
  schedule = [0; 0] \/ schedule = [1; 0] ->
  let w := startup API_KEY net (Supported (inl (la, lo))) schedule s in
  coords (state w) = Some (la, lo) /\
  loading (state w) = false /\
  pool w = [] /\
  firstn 5 (log w) =
    [ Did (SetCoords (Some (la, lo))); Did (SetLoading true); Did (SetError "");
      Requested (WeatherRequest la lo API_KEY);
      Requested (ForecastRequest la lo API_KEY) ] /\
  filter isWeatherRequest (log w) = [ Requested (WeatherRequest la lo API_KEY) ] /\
  filter isForecastRequest (log w) = [ Requested (ForecastRequest la lo API_KEY) ].
Proof.
  intros [-> | ->] w; subst w; unfold startup, settleAll, settle;
    answer_cases; repeat split.
Qed.

(** X7.  The loading flag over the course of a search that geocodes: it is up
    while the geocoding request and then the weather request are in flight,
    and already down again while the forecast request is in flight, before
    the search has finished. *)
Theorem search_loading_timeline (q : string) (s : AppState)
    (first : GeoEntry) (others : list GeoEntry) :
  net _ (GeoRequest q API_KEY) = inl (first :: others) ->
  let w0 := start (handleSearch API_KEY q) (mount s) in
  let w1 := settle net 0 w0 in
  let w2 := settle net 0 w1 in
  let w3 := settle net 0 w2 in
  (inFlight w0 = [ Requested (GeoRequest q API_KEY) ] /\
   loading (state w0) = true) /\
  (inFlight w1 = [ Requested (WeatherRequest (lat first) (lon first) API_KEY) ] /\
   loading (state w1) = true) /\
  (inFlight w2 = [ Requested (ForecastRequest (lat first) (lon first) API_KEY) ] /\
   loading (state w2) = false) /\
  (inFlight w3 = [] /\ loading (state w3) = false).
Proof.
  intros Hgeo w0 w1 w2 w3; subst w3 w2 w1 w0.
  unfold settle, inFlight; answer_cases; repeat split.
Qed.

(** X8.  Submitting twice in a row starts one search: the first submit raises the
    loading flag before it yields, and that disables the button. *)
Theorem double_submit_is_ignored (w : World) :
  submitForm API_KEY (submitForm API_KEY w) = submitForm API_KEY w /\
  (loading (state w) = false ->
   inFlight (submitForm API_KEY w) =
     inFlight w ++ [ Requested (GeoRequest (city (state w)) API_KEY) ]).
Proof.
  unfold submitForm, render; cbn [submitDisabled].
  destruct (loading (state w)) eqn:Hl.
  - rewrite Hl. split; [ reflexivity | discriminate ].
  - simpl. split; [ reflexivity | ].
    intros _. unfold inFlight; simpl. now rewrite map_app.
Qed.

(** X9.  No request made with the coordinates of a search needs to fail for stale
    data to end up on display: a search submitted while the forecast request
    of the startup is in flight ends, once that request answers last, with
    the coordinates and the weather of the searched place and the forecast of
    the startup position. *)
Theorem late_startup_forecast_overwrites (s : AppState) (la lo : number) (q : string)
    (first : GeoEntry) (others : list GeoEntry)
    (wHere wThere : WeatherData) (fHere fThere : ForecastData) :
  net _ (WeatherRequest la lo API_KEY) = inl wHere ->
  net _ (ForecastRequest la lo API_KEY) = inl fHere ->
  net _ (GeoRequest q API_KEY) = inl (first :: others) ->
  net _ (WeatherRequest (lat first) (lon first) API_KEY) = inl wThere ->
  net _ (ForecastRequest (lat first) (lon first) API_KEY) = inl fThere ->
  let w := searchOvertakesStartup API_KEY net (la, lo) q s in
  state w =
    mkAppState q (Some wThere) (Some fHere) false ""
               (Some (lat first, lon first)) (darkMode s) /\
  pool w = [] /\
  filter isForecastRequest (log w) =
    [ Requested (ForecastRequest la lo API_KEY);
      Requested (ForecastRequest (lat first) (lon first) API_KEY) ].
Proof.
  intros HwH HfH Hgeo HwT HfT w; subst w.
  unfold searchOvertakesStartup, submitForm, typeCity, settleAll, settle;
    answer_cases; repeat split.
Qed.

(** X10.  A startup whose weather request fails, with nothing loaded before,
    and which leaves a page that can be rendered (the forecast it holds, if
    any, has cards that can all be built): the position is stored, yet neither
    the weather panel nor the map inside it is rendered; the page shows the
    weather message and an enabled button. *)
Theorem startup_without_weather_shows_no_map (formats : number -> bool)
    (s : AppState) (la lo : number) (err : AxiosError) (schedule : list nat) :
  weather s = None ->
  net _ (WeatherRequest la lo API_KEY) = inr err ->
  schedule = [0; 0] \/ schedule = [1; 0] ->
  let w := startup API_KEY net (Supported (inl (la, lo))) schedule s in
  pageRenders formats (state w) = true ->
  coords (state w) = Some (la, lo) /\
  weatherPanel (render (state w)) = None /\
  mapCenter (render (state w)) = None /\
  errorBanner (render (state w)) =
    Some "Unable to fetch weather data. Please try again." /\
  submitDisabled (render (state w)) = false.
Proof.
  intros Hnone Hw [-> | ->] w; subst w; unfold startup, settleAll, settle;
    answer_cases; intros _; rewrite ?Hnone; repeat split.
Qed.

(** X11.  Switching the theme while the two startup requests are in flight is
    neither lost nor undone when they settle: the final state is the one a
    click after the settling would give. *)
Theorem theme_click_survives_settling (s : AppState) (la lo : number)
    (schedule : list nat) :
  schedule = [0; 0] \/ schedule = [1; 0] ->
  let w := exec (startupEffect API_KEY (Supported (inl (la, lo)))) (mount s) in
  state (settleAll net schedule (clickTheme w)) =
    state (clickTheme (settleAll net schedule w)) /\
  darkMode (state (settleAll net schedule (clickTheme w))) = negb (darkMode s).
Proof.
  intros [-> | ->] w; subst w; unfold clickTheme, settleAll, settle;
    answer_cases; split; reflexivity.
Qed.

End Page.

(** ** Further properties of the forecast strip *)

Lemma length_filterFrom_every_8 (l : list ForecastEntry) (index : nat) :
  length (filterFrom (fun _ i => Nat.eqb (i mod 8) 0) index l) =
  (index + length l + 7) / 8 - (index + 7) / 8.
Proof.
  revert index; induction l as [ | x l IH]; intro index; cbn [filterFrom length].
  - lia.
  - destruct (Nat.eqb (index mod 8) 0) eqn:E.
    + apply Nat.eqb_eq in E. cbn [length]. rewrite IH. lia.
    + apply Nat.eqb_neq in E. rewrite IH. lia.
Qed.

(** X12.  The strip of a forecast of [n] entries has [(n + 7) / 8] cards, one per
    started group of eight: it is empty only for an empty forecast, and any
    forecast of one to eight entries gives the single card of its first
    entry. *)
Theorem strip_length (f : ForecastData) :
  length (forecastStrip f) = (length (forecast_list f) + 7) / 8 /\
  (forecastStrip f = [] <-> forecast_list f = []) /\
  (1 <= length (forecast_list f) <= 8 ->
   map Some (forecastStrip f) = [ nth_error (forecast_list f) 0 ]).
Proof.
  assert (Hlen : length (forecastStrip f) = (length (forecast_list f) + 7) / 8).
  { unfold forecastStrip, filter_indexed. rewrite length_filterFrom_every_8.
    cbn [Nat.add]. replace ((0 + 7) / 8) with 0 by reflexivity. lia. }
  split; [ exact Hlen | split ].
  - split; intro H.
    + rewrite H in Hlen. cbn [length] in Hlen.
      destruct (forecast_list f) as [ | x l]; [ reflexivity | ].
      cbn [length] in Hlen. lia.
    + unfold forecastStrip. now rewrite H.
  - intro Hn.
    assert (H1 : length (forecastStrip f) = 1) by (rewrite Hlen; lia).
    pose proof (nth_error_filterFrom_every_8 (forecast_list f) 0 0) as H0.
    change (8 * 0 + (8 - 0 mod 8) mod 8) with 0 in H0.
    unfold forecastStrip, filter_indexed in *.
    destruct (filterFrom _ 0 (forecast_list f)) as [ | c [ | c' cs]];
      try discriminate H1.
    cbn [map]. now rewrite <- H0.
Qed.

(** ** The further properties at concrete inputs *)

(** The race on the two-city provider: the page ends on Paris with the
    forecast of Berlin. *)
Example paris_with_the_forecast_of_berlin :
  state (searchOvertakesStartup sampleKey twoCities berlin "Paris" initialState) =
  mkAppState "Paris" (Some parisWeather) (Some nineEntries) false ""
             (Some (lat paris, lon paris)) false.
Proof. reflexivity. Qed.

Lemma handleSearch_frame_witness :
  (geocodingOutage _ (GeoRequest "Paris" sampleKey) = inl [] \/
   exists err, geocodingOutage _ (GeoRequest "Paris" sampleKey) = inr err) /\
  let o := run geocodingOutage (handleSearch sampleKey "Paris") berlinLoaded in
  coords (final o) = coords berlinLoaded /\
  weather (final o) = weather berlinLoaded /\
  forecast (final o) = forecast berlinLoaded /\
  filter isFetch (events o) = [].
Proof.
  assert (H : geocodingOutage _ (GeoRequest "Paris" sampleKey) = inl [] \/
              exists err, geocodingOutage _ (GeoRequest "Paris" sampleKey) = inr err)
    by (right; exists NetworkError; reflexivity).
  split; [ exact H | ].
  exact (proj2 (handleSearch_frame sampleKey geocodingOutage "Paris" berlinLoaded) H).
Defined.

Lemma search_fetches_forecast_after_weather_failure_witness :
  weatherOutage _ (GeoRequest "Paris" sampleKey) = inl [paris] /\
  weatherOutage _ (WeatherRequest (lat paris) (lon paris) sampleKey) =
    inr (BadStatus 500) /\
  weatherOutage _ (ForecastRequest (lat paris) (lon paris) sampleKey) = inl fiveDays /\
  let o := run weatherOutage (handleSearch sampleKey "Paris") initialState in
  final o =
    mkAppState (city initialState) (weather initialState) (Some fiveDays) false
               "Unable to fetch weather data. Please try again."
               (Some (lat paris, lon paris)) (darkMode initialState) /\
  filter isForecastRequest (events o) =
    [ Requested (ForecastRequest (lat paris) (lon paris) sampleKey) ].
Proof.
  do 3 (split; [ reflexivity | ]).
  apply (search_fetches_forecast_after_weather_failure sampleKey weatherOutage
           "Paris" initialState paris [] (BadStatus 500) fiveDays);
    reflexivity.
Defined.

Lemma startup_located_fetches_once_witness :
  ([1; 0] = [0; 0] \/ [1; 0] = [1; 0]) /\
  let w := startup sampleKey forecastOutage (Supported (inl berlin)) [1; 0] initialState in
  coords (state w) = Some berlin /\
  loading (state w) = false /\
  pool w = [] /\
  firstn 5 (log w) =
    [ Did (SetCoords (Some berlin)); Did (SetLoading true); Did (SetError "");
      Requested (WeatherRequest (fst berlin) (snd berlin) sampleKey);
      Requested (ForecastRequest (fst berlin) (snd berlin) sampleKey) ] /\
  filter isWeatherRequest (log w) =
    [ Requested (WeatherRequest (fst berlin) (snd berlin) sampleKey) ] /\
  filter isForecastRequest (log w) =
    [ Requested (ForecastRequest (fst berlin) (snd berlin) sampleKey) ].
Proof.
  split; [ right; reflexivity | ].
  apply (startup_located_fetches_once sampleKey forecastOutage initialState
           (fst berlin) (snd berlin) [1; 0]).
  right; reflexivity.
Defined.

Lemma search_loading_timeline_witness :
  fairNet _ (GeoRequest "Paris" sampleKey) = inl [paris] /\
  let w0 := start (handleSearch sampleKey "Paris") (mount berlinLoaded) in
  let w1 := settle fairNet 0 w0 in
  let w2 := settle fairNet 0 w1 in
  let w3 := settle fairNet 0 w2 in
  (inFlight w0 = [ Requested (GeoRequest "Paris" sampleKey) ] /\
   loading (state w0) = true) /\
  (inFlight w1 = [ Requested (WeatherRequest (lat paris) (lon paris) sampleKey) ] /\
   loading (state w1) = true) /\
  (inFlight w2 = [ Requested (ForecastRequest (lat paris) (lon paris) sampleKey) ] /\
   loading (state w2) = false) /\
  (inFlight w3 = [] /\ loading (state w3) = false).
Proof.
  split; [ reflexivity | ].
  apply (search_loading_timeline sampleKey fairNet "Paris" berlinLoaded paris []).
  reflexivity.
Defined.

Lemma double_submit_is_ignored_witness :
  loading (state (mount berlinLoaded)) = false /\
  inFlight (submitForm sampleKey (mount berlinLoaded)) =
    inFlight (mount berlinLoaded)
      ++ [ Requested (GeoRequest (city (state (mount berlinLoaded))) sampleKey) ].
Proof.
  split; [ reflexivity | ].
  apply (proj2 (double_submit_is_ignored sampleKey (mount berlinLoaded))).
  reflexivity.
Defined.

Lemma late_startup_forecast_overwrites_witness :
  twoCities _ (WeatherRequest (fst berlin) (snd berlin) sampleKey) = inl berlinWeather /\
  twoCities _ (ForecastRequest (fst berlin) (snd berlin) sampleKey) = inl nineEntries /\
  twoCities _ (GeoRequest "Paris" sampleKey) = inl [paris] /\
  twoCities _ (WeatherRequest (lat paris) (lon paris) sampleKey) = inl parisWeather /\
  twoCities _ (ForecastRequest (lat paris) (lon paris) sampleKey) = inl fiveDays /\
  let w := searchOvertakesStartup sampleKey twoCities (fst berlin, snd berlin)
             "Paris" initialState in
  state w =
    mkAppState "Paris" (Some parisWeather) (Some nineEntries) false ""
               (Some (lat paris, lon paris)) (darkMode initialState) /\
  pool w = [] /\
  filter isForecastRequest (log w) =
    [ Requested (ForecastRequest (fst berlin) (snd berlin) sampleKey);
      Requested (ForecastRequest (lat paris) (lon paris) sampleKey) ].
Proof.
  do 5 (split; [ reflexivity | ]).
  apply (late_startup_forecast_overwrites sampleKey twoCities initialState
           (fst berlin) (snd berlin) "Paris" paris [] berlinWeather parisWeather
           nineEntries fiveDays);
    reflexivity.
Defined.

Lemma startup_without_weather_shows_no_map_witness :
  weather initialState = None /\
  weatherOutage _ (WeatherRequest (fst berlin) (snd berlin) sampleKey) =
    inr (BadStatus 500) /\
  ([0; 0] = [0; 0] \/ [0; 0] = [1; 0]) /\
  let w := startup sampleKey weatherOutage (Supported (inl (fst berlin, snd berlin)))
             [0; 0] initialState in
  pageRenders validTime (state w) = true /\
  coords (state w) = Some (fst berlin, snd berlin) /\
  weatherPanel (render (state w)) = None /\
  mapCenter (render (state w)) = None /\
  errorBanner (render (state w)) =
    Some "Unable to fetch weather data. Please try again." /\
  submitDisabled (render (state w)) = false.
Proof.
  split; [ reflexivity | split; [ reflexivity | split; [ left; reflexivity | ] ] ].
  split; [ reflexivity | ].
  apply (startup_without_weather_shows_no_map sampleKey weatherOutage validTime
           initialState (fst berlin) (snd berlin) (BadStatus 500) [0; 0]);
    [ reflexivity | reflexivity | left; reflexivity | reflexivity ].
Defined.

Lemma theme_click_survives_settling_witness :
  ([1; 0] = [0; 0] \/ [1; 0] = [1; 0]) /\
  let w := exec (startupEffect sampleKey (Supported (inl (fst berlin, snd berlin))))
                (mount initialState) in
  state (settleAll fairNet [1; 0] (clickTheme w)) =
    state (clickTheme (settleAll fairNet [1; 0] w)) /\
  darkMode (state (settleAll fairNet [1; 0] (clickTheme w))) =
    negb (darkMode initialState).
Proof.
  split; [ right; reflexivity | ].
  apply (theme_click_survives_settling sampleKey fairNet initialState
           (fst berlin) (snd berlin) [1; 0]).
  right; reflexivity.
Defined.

Lemma strip_length_witness :
  1 <= length (forecast_list (mkForecastData [entryAt 0; entryAt 1; entryAt 2])) <= 8 /\
  map Some (forecastStrip (mkForecastData [entryAt 0; entryAt 1; entryAt 2])) =
    [ nth_error (forecast_list (mkForecastData [entryAt 0; entryAt 1; entryAt 2])) 0 ].
Proof.
  assert (H : 1 <= length (forecast_list
                             (mkForecastData [entryAt 0; entryAt 1; entryAt 2])) <= 8)
    by (simpl; lia).
  split; [ exact H | ].
  exact (proj2 (proj2 (strip_length (mkForecastData [entryAt 0; entryAt 1; entryAt 2]))) H).
Defined.
